(** * Mini-Circuits attenuators: discovery and command client

    A shallow embedding of [Attenuator.py] and [DeviceManager.py], both
    Python 3 files.

    Conventions of the model.
    - A Python value that may be text or bytes is an [obj]: [Str s] is the
      [str] with the characters [s], [Bytes b] the [bytes] with the 8-bit
      values [b].  What a socket receives and what an HTTP response holds
      is [Bytes]; the literals of the two files are [Str].  The two never
      compare equal, text cannot be sought in bytes, a text pattern cannot
      be applied to bytes, and a socket does not send text.
    - A [dict] with string keys is a [gmap string string].
    - The sockets, the clock, the HTTP client and [print] are the outside
      world.  A program runs against a [world] that holds the answers the
      outside will give, in order, and records every request made.
    - An exception is a value of [exn]; a computation returns, raises, or is
      [Stuck] when the scripted world has no answer left or one the outside
      cannot give.  A request may be answered by [Fails e]: the call then
      raises [e].  A request that the outside always refuses ([sendto] with
      a text message, [select] with a negative timeout) has the refusal as
      its only possible answer.
    - The clock is read in whole ticks: [time.time()] and [discovery_time]
      are integers of one unit. *)

From Stdlib Require Import ZArith String Ascii List Lia DecimalString.
From stdpp Require Import base gmap strings list.
Local Open Scope string_scope.
Local Open Scope list_scope.

(** ** Python built-ins used by the two files *)
Module Py.

Inductive exn : Type :=
| AttenuatorException (msg : string)
| KeyError (key : string)
| IndexError
| OSError (msg : string)
| ValueError (msg : string)
| TypeError (msg : string).

#[export] Instance exn_eq_dec : EqDecision exn.
Proof. solve_decision. Defined.

(** Text and bytes. *)
Inductive obj : Type :=
| Str (text : string)
| Bytes (data : string).

(** [a == b]: a [str] and a [bytes] are never equal. *)
Definition eq_op (a b : obj) : bool :=
  match a, b with
  | Str x, Str y => String.eqb x y
  | Bytes x, Bytes y => String.eqb x y
  | _, _ => false
  end.

(** The messages of the [TypeError]s and of the [ValueError] below. *)
Definition bytes_like_required : string :=
  "a bytes-like object is required, not 'str'".
Definition string_pattern_on_bytes : string :=
  "cannot use a string pattern on a bytes-like object".
Definition negative_timeout : string := "timeout must be non-negative".

(** Values handed to [%s]: [str(v)] is what is formatted.  A float is
    carried with the text [str] gives for it. *)
Inductive value : Type :=
| VStr (s : string)
| VInt (n : Z)
| VFloat (shown : string).

Definition str (v : value) : string :=
  match v with
  | VStr s => s
  | VInt n => NilEmpty.string_of_int (Z.to_int n)
  | VFloat shown => shown
  end.

Definition code (c : ascii) : N := N_of_ascii c.

(** [str.isspace] on one character, which is also what [\s] matches. *)
Definition is_space (c : ascii) : bool :=
  let n := code c in
  ((9 <=? n) && (n <=? 13) || (28 <=? n) && (n <=? 32)
   || (n =? 133) || (n =? 160))%N.

(** The line boundaries of [str.splitlines]. *)
Definition is_linebreak (c : ascii) : bool :=
  let n := code c in
  ((10 <=? n) && (n <=? 13) || (28 <=? n) && (n <=? 30) || (n =? 133))%N.

(** The line boundaries of [bytes.splitlines]: line feed and carriage
    return only. *)
Definition is_bytes_linebreak (c : ascii) : bool :=
  let n := code c in ((n =? 10) || (n =? 13))%N.

(** [\d] *)
Definition is_digit (c : ascii) : bool :=
  let n := code c in ((48 <=? n) && (n <=? 57))%N.

Definition is_empty (s : string) : bool :=
  match s with EmptyString => true | String _ _ => false end.

Fixpoint lstrip (s : string) : string :=
  match s with
  | EmptyString => EmptyString
  | String c s' => if is_space c then lstrip s' else s
  end.

Fixpoint rstrip (s : string) : string :=
  match s with
  | EmptyString => EmptyString
  | String c s' =>
      let r := rstrip s' in
      if is_space c && is_empty r then EmptyString else String c r
  end.

(** [s.strip()] on text *)
Definition strip (s : string) : string := rstrip (lstrip s).

(** [sub in s] on text *)
Fixpoint contains (sub s : string) : bool :=
  String.prefix sub s ||
  match s with
  | EmptyString => false
  | String _ s' => contains sub s'
  end.

(** [sub in s] for a text [sub]: seeking text in bytes raises. *)
Definition in_op (sub : string) (s : obj) : exn + bool :=
  match s with
  | Str text => inr (contains sub text)
  | Bytes _ => inl (TypeError bytes_like_required)
  end.

(** Puts [c] in front of the first piece. *)
Definition push (c : ascii) (pieces : list string) : list string :=
  match pieces with
  | [] => [String c EmptyString]
  | p :: ps => String c p :: ps
  end.

(** Splitting at the line boundaries [brk]: a carriage return followed by
    a line feed is one boundary, and no empty line follows a final
    boundary. *)
Fixpoint splitlines_by (brk : ascii -> bool) (s : string) : list string :=
  match s with
  | EmptyString => []
  | String c s' =>
      if brk c then
        match s' with
        | String c' s'' =>
            if (code c =? 13)%N && (code c' =? 10)%N
            then EmptyString :: splitlines_by brk s''
            else EmptyString :: splitlines_by brk s'
        | EmptyString => [EmptyString]
        end
      else push c (splitlines_by brk s')
  end.

(** [str.splitlines] and [bytes.splitlines] *)
Definition splitlines (s : string) : list string := splitlines_by is_linebreak s.
Definition bytes_splitlines (b : string) : list string :=
  splitlines_by is_bytes_linebreak b.

(** [device.splitlines()]: the lines are of the kind of [device]. *)
Definition obj_splitlines (device : obj) : list obj :=
  match device with
  | Str text => map Str (splitlines text)
  | Bytes data => map Bytes (bytes_splitlines data)
  end.

(** [range(0, n, 2)] *)
Definition range_by_2 (n : nat) : list nat :=
  map (fun k => 2 * k)%nat (seq 0 (Nat.div2 (S n))).

(** If the string starts with [p], what follows [p]. *)
Fixpoint after_prefix (p s : string) : option string :=
  match p with
  | EmptyString => Some s
  | String a p' =>
      match s with
      | EmptyString => None
      | String b s' => if Ascii.eqb a b then after_prefix p' s' else None
      end
  end.

(** The longest prefix whose characters satisfy [f], and the rest. *)
Fixpoint span (f : ascii -> bool) (s : string) : string * string :=
  match s with
  | EmptyString => (EmptyString, EmptyString)
  | String c s' =>
      if f c then let '(a, b) := span f s' in (String c a, b)
      else (EmptyString, s)
  end.

End Py.

(** ** The outside world *)
Module World.
Import Py.

Inductive request : Type :=
| Socket                                            (* socket.socket(AF_INET, SOCK_DGRAM) *)
| Bind (sock : nat) (host : string) (port : Z)      (* sock.bind((host, port)) *)
| Setsockopt (sock : nat)                           (* sock.setsockopt(SOL_SOCKET, SO_BROADCAST, 1) *)
| Sendto (sock : nat) (msg : obj) (host : string) (port : Z)
| Time                                              (* time.time() *)
| Select (sock : nat) (timeout : Z)                 (* select.select([sock], [], [], timeout) *)
| Recvfrom (sock : nat) (bufsize : Z)
| Urlopen (url : string) (timeout : Z)              (* urlopen(Request(url), timeout).read() *)
| Print (line : string).

(** [Datagram] and [Body] carry bytes. *)
Inductive answer : Type :=
| Done
| Sock (id : nat)
| Clock (t : Z)
| Ready (r : bool)
| Datagram (data : string)
| Body (data : string)
| Fails (e : exn).

Record world : Type := { script : list answer; trace : list request }.

Inductive outcome (A : Type) : Type :=
| Returned (a : A)
| Raised (e : exn)
| Stuck.
Arguments Returned {A} a.
Arguments Raised {A} e.
Arguments Stuck {A}.

Definition M (A : Type) : Type := world -> outcome A * world.

Definition ret {A} (a : A) : M A := fun w => (Returned a, w).
Definition raise {A} (e : exn) : M A := fun w => (Raised e, w).
Definition stuck {A} : M A := fun w => (Stuck, w).

Definition bind {A B} (m : M A) (k : A -> M B) : M B :=
  fun w =>
    match m w with
    | (Returned a, w') => k a w'
    | (Raised e, w') => (Raised e, w')
    | (Stuck, w') => (Stuck, w')
    end.

(** One request to the outside: it is recorded, and the next scripted
    answer is consumed; an answer [Fails e] raises [e] at the call. *)
Definition call (r : request) : M answer :=
  fun w =>
    let tr := trace w ++ [r] in
    match script w with
    | [] => (Stuck, {| script := []; trace := tr |})
    | Fails e :: rest => (Raised e, {| script := rest; trace := tr |})
    | a :: rest => (Returned a, {| script := rest; trace := tr |})
    end.

(** A request that the outside always refuses with [e]: it is recorded,
    and the only answer there can be is [Fails e]. *)
Definition refused {A} (r : request) (e : exn) : M A :=
  fun w =>
    let tr := trace w ++ [r] in
    match script w with
    | [] => (Stuck, {| script := []; trace := tr |})
    | Fails e' :: rest =>
        if decide (e' = e) then (Raised e, {| script := rest; trace := tr |})
        else (Stuck, {| script := rest; trace := tr |})
    | _ :: rest => (Stuck, {| script := rest; trace := tr |})
    end.

(** [print] writes a line and cannot be answered. *)
Definition print (line : string) : M unit :=
  fun w => (Returned tt, {| script := script w; trace := trace w ++ [Print line] |}).

Definition fresh (answers : list answer) : world :=
  {| script := answers; trace := [] |}.

#[export] Instance M_ret : MRet M := @ret.
#[export] Instance M_bind : MBind M := fun A B k m => bind m k.

End World.

(** ** Attenuator.py *)
Module Attenuator.
Import Py World.

Definition START_MODE_LAST_ATTENUATION := "L".
Definition START_MODE_FIXED_ATTENUATION := "F".
Definition START_MODE_FACTORY_DEFAULT := "N".
Definition DIRECTION_FORWARD := "0".
Definition DIRECTION_BACKWARDS := "1".
Definition DIRECTION_BIDIRECTIONAL := "2".
Definition DWELL_TIME_UNITS_MICROSECONDS := "U".
Definition DWELL_TIME_UNITS_MILLISECONDS := "M".
Definition DWELL_TIME_UNITS_SECONDS := "S".
Definition MODE_ON := "ON".
Definition MODE_OFF := "OFF".

(** The attributes of an [Attenuator] object. *)
Record t : Type := {
  model_name : string;
  serial_number : string;
  ip_address : string;
  port : string;
  subnet_mask : string;
  network_gateway : string;
  mac_address : string;
  _url : string;
  password : option string
}.

(** [device_details[key]] *)
Definition getitem (device_details : gmap string string) (key : string)
  : exn + string :=
  match device_details !! key with
  | Some v => inr v
  | None => inl (KeyError key)
  end.

Definition __init__ (device_details : gmap string string) : exn + t :=
  match getitem device_details "Model Name" with
  | inl e => inl e | inr model_name =>
  match getitem device_details "Serial Number" with
  | inl e => inl e | inr serial_number =>
  match getitem device_details "IP Address" with
  | inl e => inl e | inr ip_address =>
  match getitem device_details "Port" with
  | inl e => inl e | inr port =>
  match getitem device_details "Subnet Mask" with
  | inl e => inl e | inr subnet_mask =>
  match getitem device_details "Network Gateway" with
  | inl e => inl e | inr network_gateway =>
  match getitem device_details "Mac Address" with
  | inl e => inl e | inr mac_address =>
    inr {| model_name := model_name;
           serial_number := serial_number;
           ip_address := ip_address;
           port := port;
           subnet_mask := subnet_mask;
           network_gateway := network_gateway;
           mac_address := mac_address;
           _url := "http://" +:+ ip_address +:+ ":" +:+ port +:+ "/";
           password := None |}
  end end end end end end end.

(** The text of [_get_attenuator_details]; the lines are joined by line
    feeds, and no line feed follows the last. *)
Definition _get_attenuator_details (self : t) : string :=
  "Model Name: " +:+ model_name self +:+ String "010" (
  "Serial Number: " +:+ serial_number self +:+ String "010" (
  "IP Address: " +:+ ip_address self +:+ " Port: " +:+ port self +:+ String "010" (
  "Subnet Mask: " +:+ subnet_mask self +:+ String "010" (
  "Network Gateway: " +:+ network_gateway self +:+ String "010" (
  "Mac Address: " +:+ mac_address self))))).

Definition __str__ (self : t) : string := _get_attenuator_details self.

(** [self.password = p] *)
Definition set_password (self : t) (p : option string) : t :=
  {| model_name := model_name self;
     serial_number := serial_number self;
     ip_address := ip_address self;
     port := port self;
     subnet_mask := subnet_mask self;
     network_gateway := network_gateway self;
     mac_address := mac_address self;
     _url := _url self;
     password := p |}.

(** [if self.password:] tests the truth value of the attribute: [None]
    and the empty string both take the [else] branch. *)
Definition http_cmd (self : t) (command : string) : string :=
  match password self with
  | Some p =>
      if is_empty p then _url self +:+ command
      else _url self +:+ p +:+ ";" +:+ command
  | None => _url self +:+ command
  end.

(** What [read()] gives is bytes. *)
Definition _send_http_cmd (self : t) (command : string) : M obj :=
  a ← call (Urlopen (http_cmd self command) 60);
  match a with
  | Body data => mret (Bytes data)
  | _ => stuck
  end.

Definition set_attenuation (self : t) (db : value) : M unit :=
  return_code ← _send_http_cmd self (":SETATT=" +:+ str db);
  if eq_op return_code (Str "0") then
    raise (AttenuatorException "Command to set Attenuation Failed")
  else if eq_op return_code (Str "2") then
    raise (AttenuatorException
      ("Requested attenuation was higher than the allowed range, " +:+
       "the attenuation was set to the device's maximum"))
  else mret tt.

Definition get_attenuation (self : t) : M obj :=
  _send_http_cmd self ":ATT?".

(** The shape shared by the setters that test [return_code != '1']. *)
Definition expect_1 (self : t) (command failure : string) : M unit :=
  return_code ← _send_http_cmd self command;
  if negb (eq_op return_code (Str "1")) then
    raise (AttenuatorException failure)
  else mret tt.

Definition set_startup_attenuation_mode (self : t) (start_mode : value) :=
  expect_1 self ("STARTUPATT:INDICATOR:" +:+ str start_mode)
    "Command to change attenuator startup mode failed".

Definition get_startup_attenuation_mode (self : t) : M obj :=
  _send_http_cmd self ":STARTUPATT:INDICATOR?".

Definition set_startup_attenuation_value (self : t) (db : value) : M unit :=
  return_code ← _send_http_cmd self (":STARTUPATT:VALUE:" +:+ str db);
  if eq_op return_code (Str "0") then
    raise (AttenuatorException "Command to set Attenuation Failed")
  else if eq_op return_code (Str "2") then
    raise (AttenuatorException
      ("Requested attenuation was higher than the allowed range," +:+
       "the attenuation was set to the device's maximum"))
  else mret tt.

Definition get_startup_attenuation_value (self : t) : M obj :=
  _send_http_cmd self ":STARTUPATT:VALUE?".

Definition get_firmware_version (self : t) : M obj :=
  _send_http_cmd self ":FIRMWARE?".

Definition hop_mode_set_points (self : t) (points : value) :=
  expect_1 self (":HOP:POINTS:" +:+ str points)
    "Command to set number of hop points failed".

Definition hop_mode_get_points (self : t) : M obj :=
  _send_http_cmd self ":HOP:POINTS?".

Definition hop_mode_set_direction (self : t) (direction : value) :=
  expect_1 self (":HOP:DIRECTION:" +:+ str direction)
    "Command to set hop direction failed".

Definition hop_mode_get_direction (self : t) : M obj :=
  _send_http_cmd self ":HOP:DIRECTION?".

Definition hop_mode_set_indexed_point (self : t) (point : value) :=
  expect_1 self (":HOP:POINT:" +:+ str point)
    "Command to set indexed point failed".

Definition hop_mode_get_indexed_point (self : t) : M obj :=
  _send_http_cmd self ":HOP:POINT?".

Definition hop_mode_set_point_dwell_time_units (self : t) (units : value) :=
  expect_1 self (":HOP:DWELL_UNIT:" +:+ str units)
    "Command to set dwell time units failed".

Definition hop_mode_set_point_dwell_time (self : t) (dwell_time : value) :=
  expect_1 self (":HOP:DWELL:" +:+ str dwell_time)
    "Command to set dwell time failed".

Definition hop_mode_get_point_dwell_time (self : t) : M obj :=
  _send_http_cmd self ":HOP:DWELL?".

Definition hop_mode_set_point_attenuation (self : t) (db : value) :=
  expect_1 self (":HOP:ATT:" +:+ str db)
    "Command to set point attenuation failed".

Definition hop_mode_get_point_attenuation (self : t) : M obj :=
  _send_http_cmd self ":HOP:ATT?".

Definition set_hop_mode (self : t) (mode : value) :=
  expect_1 self (":HOP:MODE:" +:+ str mode)
    "Command to set hop mode failed".

Definition sweep_mode_set_sweep_direction (self : t) (direction : value) :=
  expect_1 self (":SWEEP:DIRECTION:" +:+ str direction)
    "Command to set sweep direction failed".

Definition sweep_mode_get_sweep_direction (self : t) : M obj :=
  _send_http_cmd self ":SWEEP:DIRECTION?".

Definition sweep_mode_set_dwell_time_units (self : t) (units : value) :=
  expect_1 self (":SWEEP:DWELL_UNIT:" +:+ str units)
    "Command to set sweep dwell time units failed".

Definition sweep_mode_set_dwell_time (self : t) (dwell_time : value) :=
  expect_1 self (":SWEEP:DWELL:" +:+ str dwell_time)
    "Command to set sweep dwell time failed".

Definition sweep_mode_get_dwell_time (self : t) : M obj :=
  _send_http_cmd self ":SWEEP:DWELL?".

Definition sweep_mode_set_start_attenuation (self : t) (db : value) :=
  expect_1 self (":SWEEP:START:" +:+ str db)
    "Command to set sweep start attenuation failed".

Definition sweep_mode_get_start_attenuation (self : t) : M obj :=
  _send_http_cmd self ":SWEEP:START?".

Definition sweep_mode_set_stop_attenuation (self : t) (db : value) :=
  expect_1 self (":SWEEP:STOP:" +:+ str db)
    "Command to set sweep stop attenuation failed".

Definition sweep_mode_get_stop_attenuation (self : t) : M obj :=
  _send_http_cmd self ":SWEEP:STOP?".

Definition sweep_mode_set_step_size (self : t) (db : value) :=
  expect_1 self (":SWEEP:STEPSIZE:" +:+ str db)
    "Command to set sweep step size failed".

Definition sweep_mode_get_step_size (self : t) : M obj :=
  _send_http_cmd self ":SWEEP:STEPSIZE?".

Definition set_sweep_mode (self : t) (mode : value) :=
  expect_1 self (":SWEEP:MODE:" +:+ str mode)
    "Command to set sweep mode failed".

End Attenuator.

(** ** DeviceManager.py *)
Module DeviceManager.
Import Py World.

Definition MINI_CIRCUITS_LISTENTING_PORT : Z := 4950.
Definition MINI_CIRCUITS_ANSWERING_PORT : Z := 4951.
Definition SOCKET_BUFFER_SIZE : Z := 1024.

(** *** The two regular expressions, on a text line *)

(** A digit or a dot: the class of group 1. *)
Definition is_ip_char (c : ascii) : bool :=
  is_digit c || (code c =? 46)%N.

(** The match of [ip_address_pattern] at the start of a text line.  The
    pattern is the text [IP Address=], group 1 (any run of digits and
    dots), two spaces, the text [Port: ] and group 2 (a run of one or more
    digits).  Both repetitions are greedy and are followed by a character
    outside their class, so each takes the longest run.  The result is
    [(group(1), group(2))]. *)
Definition match_ip_address (field : string) : option (string * string) :=
  match after_prefix "IP Address=" field with
  | None => None
  | Some r =>
      let '(group1, r1) := span is_ip_char r in
      match after_prefix "  Port: " r1 with
      | None => None
      | Some r2 =>
          let '(group2, _) := span is_digit r2 in
          if is_empty group2 then None else Some (group1, group2)
      end
  end.

(** [re.match(ip_address_pattern, field)]: a text pattern on bytes
    raises. *)
Definition re_match (field : obj) : exn + option (string * string) :=
  match field with
  | Str text => inr (match_ip_address text)
  | Bytes _ => inl (TypeError string_pattern_on_bytes)
  end.

(** A colon or an equals sign. *)
Definition is_delimiter (c : ascii) : bool :=
  ((code c =? 58) || (code c =? 61))%N.

Definition starts_with_space (s : string) : bool :=
  match s with
  | EmptyString => false
  | String c _ => is_space c
  end.

(** The split of a text line, scanning from the left: a colon or an equals
    sign is a separator on its own; a whitespace character followed by
    another starts a separator that takes the whole run ([in_run] is set
    while the rest of that run is skipped); any other character belongs to
    the current piece. *)
Fixpoint re_split_from (in_run : bool) (field : string) : list string :=
  match field with
  | EmptyString => [EmptyString]
  | String c rest =>
      if in_run && is_space c then re_split_from true rest
      else if is_delimiter c then EmptyString :: re_split_from false rest
      else if is_space c && starts_with_space rest
           then EmptyString :: re_split_from true rest
      else push c (re_split_from false rest)
  end.

(** [re.split] with the pattern of line 47: a text pattern on bytes
    raises. *)
Definition re_split (field : obj) : exn + list string :=
  match field with
  | Str text => inr (re_split_from false text)
  | Bytes _ => inl (TypeError string_pattern_on_bytes)
  end.

(** *** Parsing one reply *)

(** [for i in range(0, len(split_fields), 2):
       device_details[split_fields[i].strip()] = split_fields[i+1].strip()]
    The right-hand side is evaluated first; an index past the end raises
    [IndexError]. *)
Fixpoint assign_pairs (indices : list nat) (split_fields : list string)
    (device_details : gmap string string) : exn + gmap string string :=
  match indices with
  | [] => inr device_details
  | i :: indices' =>
      match split_fields !! (i + 1)%nat with
      | None => inl IndexError
      | Some v =>
          match split_fields !! i with
          | None => inl IndexError
          | Some k =>
              assign_pairs indices' split_fields
                (<[strip k := strip v]> device_details)
          end
      end
  end.

(** The body of [for field in device.splitlines():]. *)
Definition parse_field (device_details : gmap string string)
    (field : obj) : exn + gmap string string :=
  match in_op "IP Address" field with
  | inl e => inl e
  | inr true =>
      match re_match field with
      | inl e => inl e
      | inr (Some (group1, group2)) =>
          inr (<["Port" := group2]> (<["IP Address" := group1]> device_details))
      | inr None => inr device_details
      end
  | inr false =>
      match re_split field with
      | inl e => inl e
      | inr split_fields =>
          assign_pairs (range_by_2 (length split_fields)) split_fields
            device_details
      end
  end.

Fixpoint parse_fields (fields : list obj)
    (device_details : gmap string string) : exn + gmap string string :=
  match fields with
  | [] => inr device_details
  | field :: fields' =>
      match parse_field device_details field with
      | inl e => inl e
      | inr device_details' => parse_fields fields' device_details'
      end
  end.

(** The dictionary built from one reply. *)
Definition device_details_of (device : obj) : exn + gmap string string :=
  parse_fields (obj_splitlines device) ∅.

(** The body of the [try:] for one reply. *)
Definition parse_device (device : obj) : exn + Attenuator.t :=
  match device_details_of device with
  | inl e => inl e
  | inr device_details => Attenuator.__init__ device_details
  end.

(** [for device in broadcast_responses: try: ... except: print(...)] *)
Fixpoint parse_responses (broadcast_responses : list obj)
    (discovered_devices : list Attenuator.t) : M (list Attenuator.t) :=
  match broadcast_responses with
  | [] => mret discovered_devices
  | device :: rest =>
      match parse_device device with
      | inr a => parse_responses rest (discovered_devices ++ [a])
      | inl _ =>
          print "Invalid Device Description Response";;
          parse_responses rest discovered_devices
      end
  end.

(** *** Talking to the sockets *)

Definition socket_socket : M nat :=
  a ← call Socket;
  match a with Sock id => mret id | _ => stuck end.

Definition expect_done (a : answer) : M unit :=
  match a with Done => mret tt | _ => stuck end.

Definition bind_ (sock : nat) (host : string) (port : Z) : M unit :=
  call (Bind sock host port) ≫= expect_done.

Definition setsockopt (sock : nat) : M unit :=
  call (Setsockopt sock) ≫= expect_done.

(** [sock.sendto(msg, (host, port))]: a socket sends bytes, and refuses a
    text message with a [TypeError] before anything is sent. *)
Definition sendto (sock : nat) (msg : obj) (host : string) (port : Z) : M unit :=
  match msg with
  | Bytes _ => call (Sendto sock msg host port) ≫= expect_done
  | Str _ => refused (Sendto sock msg host port) (TypeError bytes_like_required)
  end.

Definition time_time : M Z :=
  a ← call Time;
  match a with Clock now => mret now | _ => stuck end.

(** [ready[0]] of [select.select([sock], [], [], timeout)] as a truth
    value; a negative timeout is refused with a [ValueError]. *)
Definition select_select (sock : nat) (timeout : Z) : M bool :=
  if (timeout <? 0)%Z then
    refused (Select sock timeout) (ValueError negative_timeout)
  else
    a ← call (Select sock timeout);
    match a with Ready r => mret r | _ => stuck end.

(** [data] of [sock.recvfrom(bufsize)], which is bytes; the sender's
    address is unused. *)
Definition recvfrom (sock : nat) (bufsize : Z) : M obj :=
  a ← call (Recvfrom sock bufsize);
  match a with Datagram data => mret (Bytes data) | _ => stuck end.

(** [while time.time() < timeout: ...].  Every turn of the loop makes at
    least one request, so [fuel] larger than the script never runs out
    before the script does. *)
Fixpoint receive (fuel : nat) (receiver_socket : nat) (timeout : Z)
    (broadcast_responses : list obj) : M (list obj) :=
  match fuel with
  | O => stuck
  | S fuel' =>
      now ← time_time;
      if (now <? timeout)%Z then
        now' ← time_time;
        ready ← select_select receiver_socket (timeout - now');
        if ready : bool then
          data ← recvfrom receiver_socket SOCKET_BUFFER_SIZE;
          receive fuel' receiver_socket timeout (broadcast_responses ++ [data])
        else receive fuel' receiver_socket timeout broadcast_responses
      else mret broadcast_responses
  end.

Definition with_fuel {A} (f : nat -> M A) : M A :=
  fun w => f (S (length (script w))) w.

Definition discover_devices (discovery_time : Z) : M (list Attenuator.t) :=
  broadcast_socket ← socket_socket;
  bind_ broadcast_socket "" 0;;
  setsockopt broadcast_socket;;
  let msg := Str ("MCLDAT?" +:+ String "010" EmptyString) in
  sendto broadcast_socket msg "<broadcast>" MINI_CIRCUITS_LISTENTING_PORT;;
  receiver_socket ← socket_socket;
  bind_ receiver_socket "" MINI_CIRCUITS_ANSWERING_PORT;;
  now ← time_time;
  let timeout := (now + discovery_time)%Z in
  broadcast_responses ←
    with_fuel (fun fuel => receive fuel receiver_socket timeout []);
  parse_responses broadcast_responses [].

End DeviceManager.

(** * Properties *)

Import Py World.

(** What a computation does on a world: its outcome, and the requests made. *)
Definition result_of {A} (m : M A) (w : world) : outcome A := fst (m w).
Definition trace_of {A} (m : M A) (w : world) : list request := trace (snd (m w)).

(** Whether an outcome is a normal return. *)
Definition returns {A} (o : outcome A) : bool :=
  match o with
  | Returned _ => true
  | _ => false
  end.

Fixpoint all_chars (f : ascii -> bool) (s : string) : bool :=
  match s with
  | EmptyString => true
  | String c s' => f c && all_chars f s'
  end.

Lemma append_cons (x : ascii) (a b : string) :
  String x a +:+ b = String x (a +:+ b).
Proof. reflexivity. Qed.

Lemma append_nil_l (s : string) : "" +:+ s = s.
Proof. reflexivity. Qed.

Lemma append_assoc (a b c : string) : (a +:+ b) +:+ c = a +:+ (b +:+ c).
Proof.
  induction a as [|x a IH]; [reflexivity|].
  rewrite !append_cons, IH. reflexivity.
Qed.

(** ** The command client *)
Section CommandClient.
Import Attenuator.

(** A world in which the device answers the next request with the body
    [r]. *)
Definition answering (r : string) (rest : list answer) (tr : list request) : world :=
  {| script := Body r :: rest; trace := tr |}.

Lemma send_http_cmd_body (self : t) (command r : string) rest tr :
  _send_http_cmd self command (answering r rest tr) =
    (Returned (Bytes r),
     {| script := rest; trace := tr ++ [Urlopen (http_cmd self command) 60] |}).
Proof. reflexivity. Qed.

Lemma send_http_cmd_fails (self : t) (command : string) e rest tr :
  _send_http_cmd self command {| script := Fails e :: rest; trace := tr |} =
    (Raised e,
     {| script := rest; trace := tr ++ [Urlopen (http_cmd self command) 60] |}).
Proof. reflexivity. Qed.

(** The bytes of a response are equal to no text. *)
Lemma response_equals_no_text (r code : string) :
  eq_op (Bytes r) (Str code) = false.
Proof. reflexivity. Qed.

(** The fifteen setters that test [return_code != '1']. *)
Inductive discrete_setter : Type :=
| StartupAttenuationMode
| HopPoints | HopDirection | HopIndexedPoint | HopPointDwellTimeUnits
| HopPointDwellTime | HopPointAttenuation | HopMode
| SweepDirection | SweepDwellTimeUnits | SweepDwellTime
| SweepStartAttenuation | SweepStopAttenuation | SweepStepSize | SweepMode.

Definition run_setter (op : discrete_setter) : t -> value -> M unit :=
  match op with
  | StartupAttenuationMode => set_startup_attenuation_mode
  | HopPoints => hop_mode_set_points
  | HopDirection => hop_mode_set_direction
  | HopIndexedPoint => hop_mode_set_indexed_point
  | HopPointDwellTimeUnits => hop_mode_set_point_dwell_time_units
  | HopPointDwellTime => hop_mode_set_point_dwell_time
  | HopPointAttenuation => hop_mode_set_point_attenuation
  | HopMode => set_hop_mode
  | SweepDirection => sweep_mode_set_sweep_direction
  | SweepDwellTimeUnits => sweep_mode_set_dwell_time_units
  | SweepDwellTime => sweep_mode_set_dwell_time
  | SweepStartAttenuation => sweep_mode_set_start_attenuation
  | SweepStopAttenuation => sweep_mode_set_stop_attenuation
  | SweepStepSize => sweep_mode_set_step_size
  | SweepMode => set_sweep_mode
  end.

(** The message each of them raises with. *)
Definition failure_of (op : discrete_setter) : string :=
  match op with
  | StartupAttenuationMode => "Command to change attenuator startup mode failed"
  | HopPoints => "Command to set number of hop points failed"
  | HopDirection => "Command to set hop direction failed"
  | HopIndexedPoint => "Command to set indexed point failed"
  | HopPointDwellTimeUnits => "Command to set dwell time units failed"
  | HopPointDwellTime => "Command to set dwell time failed"
  | HopPointAttenuation => "Command to set point attenuation failed"
  | HopMode => "Command to set hop mode failed"
  | SweepDirection => "Command to set sweep direction failed"
  | SweepDwellTimeUnits => "Command to set sweep dwell time units failed"
  | SweepDwellTime => "Command to set sweep dwell time failed"
  | SweepStartAttenuation => "Command to set sweep start attenuation failed"
  | SweepStopAttenuation => "Command to set sweep stop attenuation failed"
  | SweepStepSize => "Command to set sweep step size failed"
  | SweepMode => "Command to set sweep mode failed"
  end.

Lemma expect_1_raises (self : t) (command failure r : string) rest tr :
  expect_1 self command failure (answering r rest tr) =
    (Raised (AttenuatorException failure),
     {| script := rest; trace := tr ++ [Urlopen (http_cmd self command) 60] |}).
Proof. reflexivity. Qed.

(** A device as discovery builds it, at 192.168.1.50:80. *)
Definition bench_details : gmap string string :=
  <["Model Name" := "RCDAT-6000-60"]> (
  <["Serial Number" := "11406170049"]> (
  <["IP Address" := "192.168.1.50"]> (
  <["Port" := "80"]> (
  <["Subnet Mask" := "255.255.255.0"]> (
  <["Network Gateway" := "192.168.1.1"]> (
  <["Mac Address" := "D0-73-7F-82-D8-01"]> ∅)))))).

Definition bench_device : t :=
  {| model_name := "RCDAT-6000-60";
     serial_number := "11406170049";
     ip_address := "192.168.1.50";
     port := "80";
     subnet_mask := "255.255.255.0";
     network_gateway := "192.168.1.1";
     mac_address := "D0-73-7F-82-D8-01";
     _url := "http://192.168.1.50:80/";
     password := None |}.

Example bench_device_init : __init__ bench_details = inr bench_device.
Proof. vm_compute. reflexivity. Qed.

(** C1.  [set_attenuation] and [set_startup_attenuation_value] return
    normally for every response of the device, the responses 0 and 2
    included: the response is bytes, and the two tests compare it with the
    texts ['0'] and ['2'], to which no bytes are equal.  The one request
    has been made and its answer consumed. *)
Theorem attenuation_setters_never_raise (self : t) (db : value) (r : string)
    (rest : list answer) (tr : list request) :
  set_attenuation self db (answering r rest tr) =
    (Returned tt,
     {| script := rest;
        trace := tr ++ [Urlopen (http_cmd self (":SETATT=" +:+ str db)) 60] |}) /\
  set_startup_attenuation_value self db (answering r rest tr) =
    (Returned tt,
     {| script := rest;
        trace := tr ++ [Urlopen (http_cmd self (":STARTUPATT:VALUE:" +:+ str db)) 60] |}).
Proof. split; reflexivity. Qed.

(** C2.  Every discrete setter raises its [AttenuatorException] for every
    response of the device, the response 1 included: the response is
    bytes, and [return_code != '1'] compares it with a text, from which
    any bytes differ. *)
Theorem discrete_setters_always_raise (op : discrete_setter) (self : t)
    (arg : value) (r : string) (rest : list answer) (tr : list request) :
  result_of (run_setter op self arg) (answering r rest tr) =
    Raised (AttenuatorException (failure_of op)) /\
  script (snd (run_setter op self arg (answering r rest tr))) = rest /\
  returns (result_of (run_setter op self arg) (answering "1" rest tr)) = false.
Proof. repeat split; destruct op; reflexivity. Qed.

(** The URL C4 expects whenever a password [p] is set. *)
Definition url_with_password (self : t) (p command : string) : string :=
  "http://" +:+ ip_address self +:+ ":" +:+ port self +:+ "/" +:+ p +:+ ";" +:+ command.

Definition url_without_password (self : t) (command : string) : string :=
  "http://" +:+ ip_address self +:+ ":" +:+ port self +:+ "/" +:+ command.

Lemma init_url (device_details : gmap string string) (self : t) :
  __init__ device_details = inr self ->
  _url self = "http://" +:+ ip_address self +:+ ":" +:+ port self +:+ "/" /\
  password self = None.
Proof.
  unfold __init__. intros H.
  repeat match type of H with
         | match ?g with inl _ => _ | inr _ => _ end = _ =>
             destruct g; [discriminate|]
         end.
  injection H as <-. split; reflexivity.
Qed.

(** C4, as stated, fails for the empty password: it is set, and the URL
    carries no [;]. *)
Lemma empty_password_sends_bare_command :
  let self := set_password bench_device (Some "") in
  trace_of (_send_http_cmd self ":ATT?") (answering "12.5" [] []) =
    [Urlopen "http://192.168.1.50:80/:ATT?" 60] /\
  url_with_password self "" ":ATT?" = "http://192.168.1.50:80/;:ATT?" /\
  trace_of (_send_http_cmd self ":ATT?") (answering "12.5" [] []) <>
    [Urlopen (url_with_password self "" ":ATT?") 60].
Proof. repeat split. discriminate. Qed.

(** C4, amended.  For a device built by [__init__] whose password is then
    set to [pw], every command [c] is issued as exactly one request with
    the timeout 60: to [http://<ip>:<port>/p;c] when [pw] is a non-empty
    password [p], and to [http://<ip>:<port>/c] when no password or the
    empty password is set. *)
Theorem send_http_cmd_request (device_details : gmap string string)
    (self0 : t) (pw : option string) (c : string) (w : world) :
  __init__ device_details = inr self0 ->
  let self := set_password self0 pw in
  (forall p, pw = Some p -> p <> "" ->
     trace_of (_send_http_cmd self c) w =
       trace w ++ [Urlopen (url_with_password self p c) 60]) /\
  (pw = None \/ pw = Some "" ->
     trace_of (_send_http_cmd self c) w =
       trace w ++ [Urlopen (url_without_password self c) 60]).
Proof.
  intros Hinit self.
  destruct (init_url _ _ Hinit) as [Hurl _].
  assert (Htrace : trace_of (_send_http_cmd self c) w =
                   trace w ++ [Urlopen (http_cmd self c) 60]).
  { unfold trace_of, _send_http_cmd, mbind, M_bind, bind, call.
    destruct w as [sc tr]; simpl.
    destruct sc as [|a sc]; [reflexivity|].
    destruct a; reflexivity. }
  rewrite Htrace. split.
  - intros p -> Hp. unfold http_cmd, url_with_password. subst self. simpl.
    destruct p as [|x p]; [congruence|]. simpl is_empty. cbv iota.
    rewrite Hurl. rewrite !append_assoc. reflexivity.
  - intros [-> | ->]; unfold http_cmd, url_without_password; subst self; simpl;
      rewrite Hurl; rewrite !append_assoc; reflexivity.
Qed.

Lemma send_http_cmd_request_witness :
  trace_of (_send_http_cmd (set_password bench_device (Some "ABC")) ":ATT?")
    (answering "12.5" [] []) =
    [Urlopen "http://192.168.1.50:80/ABC;:ATT?" 60] /\
  trace_of (_send_http_cmd (set_password bench_device None) ":ATT?")
    (answering "12.5" [] []) =
    [Urlopen "http://192.168.1.50:80/:ATT?" 60].
Proof.
  pose proof (send_http_cmd_request bench_details bench_device (Some "ABC")
                ":ATT?" (answering "12.5" [] []) bench_device_init) as [H1 _].
  pose proof (send_http_cmd_request bench_details bench_device None
                ":ATT?" (answering "12.5" [] []) bench_device_init) as [_ H2].
  split.
  - apply (H1 "ABC"); [reflexivity | discriminate].
  - apply H2. left. reflexivity.
Defined.

End CommandClient.

(** ** Discovery *)
Section Discovery.
Import DeviceManager.

(** The descriptor a reply gives, if its parsing raises nothing. *)
Definition parsed (device : obj) : option Attenuator.t :=
  match parse_device device with
  | inr a => Some a
  | inl _ => None
  end.

Definition descriptors (responses : list obj) : list Attenuator.t :=
  omap parsed responses.

Definition invalid_response : request :=
  Print "Invalid Device Description Response".

(** What is printed while a list of replies is parsed. *)
Definition complaint (device : obj) : list request :=
  match parse_device device with
  | inr _ => []
  | inl _ => [invalid_response]
  end.

Definition complaints (responses : list obj) : list request :=
  flat_map complaint responses.

Lemma parse_responses_run (responses : list obj)
    (acc : list Attenuator.t) (w : world) :
  parse_responses responses acc w =
    (Returned (acc ++ descriptors responses),
     {| script := script w; trace := trace w ++ complaints responses |}).
Proof.
  revert acc w. induction responses as [|device rest IH]; intros acc w.
  - simpl. unfold mret, M_ret, ret. rewrite !app_nil_r. destruct w; reflexivity.
  - simpl. unfold descriptors, complaints, parsed, complaint. simpl.
    destruct (parse_device device) as [e|a].
    + unfold mbind, M_bind, bind, print. rewrite IH. simpl.
      rewrite <- app_assoc. reflexivity.
    + rewrite IH. simpl. rewrite <- app_assoc. reflexivity.
Qed.

Lemma parse_responses_result (responses : list obj) (w : world) :
  result_of (parse_responses responses []) w = Returned (descriptors responses).
Proof. unfold result_of. rewrite parse_responses_run. reflexivity. Qed.

(** The seven keys [Attenuator.__init__] reads, in the order it reads
    them. *)
Definition required_fields : list string :=
  ["Model Name"; "Serial Number"; "IP Address"; "Port"; "Subnet Mask";
   "Network Gateway"; "Mac Address"].

Definition newline : string := String "010" EmptyString.

(** The characters of a reply as a device sends it, and of one that
    carries no field. *)
Definition bench_reply : string :=
  "Model Name: RCDAT-6000-60" +:+ newline +:+
  "Serial Number=11406170049" +:+ newline +:+
  "IP Address=10.0.0.5  Port: 4951" +:+ newline +:+
  "Subnet Mask=255.255.255.0" +:+ newline +:+
  "Network Gateway=10.0.0.1" +:+ newline +:+
  "Mac Address=D0-73-7F-82-D8-01" +:+ newline.

Definition bench_descriptor : Attenuator.t :=
  {| Attenuator.model_name := "RCDAT-6000-60";
     Attenuator.serial_number := "11406170049";
     Attenuator.ip_address := "10.0.0.5";
     Attenuator.port := "4951";
     Attenuator.subnet_mask := "255.255.255.0";
     Attenuator.network_gateway := "10.0.0.1";
     Attenuator.mac_address := "D0-73-7F-82-D8-01";
     Attenuator._url := "http://10.0.0.5:4951/";
     Attenuator.password := None |}.

Definition noise_reply : string := "hello".

(** The loop of lines 36 to 52 handed the reply as text would build the
    descriptor; a socket hands it over as bytes. *)
Example bench_reply_as_text : parse_device (Str bench_reply) = inr bench_descriptor.
Proof. vm_compute. reflexivity. Qed.

Example address_line_as_text (device_details : gmap string string) :
  parse_field device_details (Str "IP Address=10.0.0.5  Port: 4951") =
    inr (<["Port" := "4951"]> (<["IP Address" := "10.0.0.5"]> device_details)).
Proof. reflexivity. Qed.

(** *** A reply as it is received *)

Lemma parse_field_bytes (device_details : gmap string string) (line : string) :
  parse_field device_details (Bytes line) = inl (TypeError bytes_like_required).
Proof. reflexivity. Qed.

Lemma splitlines_by_nil (brk : ascii -> bool) (s : string) :
  splitlines_by brk s = [] -> s = "".
Proof.
  destruct s as [|c s]; [reflexivity|]. simpl. destruct (brk c).
  - destruct s as [|c' s']; [discriminate|].
    destruct ((code c =? 13)%N && (code c' =? 10)%N); discriminate.
  - destruct (splitlines_by brk s); discriminate.
Qed.

Lemma device_details_of_bytes (b : string) :
  device_details_of (Bytes b) =
    if is_empty b then inr ∅ else inl (TypeError bytes_like_required).
Proof.
  unfold device_details_of, obj_splitlines.
  destruct (bytes_splitlines b) as [|l ls] eqn:E.
  - apply splitlines_by_nil in E. subst b. reflexivity.
  - destruct b as [|c b]; [discriminate E|]. reflexivity.
Qed.

(** No reply received from a socket is parsed: the first line raises
    [TypeError] at the test of line 40; the reply of no bytes has no line,
    and [__init__] misses its first key. *)
Lemma parse_device_bytes (b : string) :
  parse_device (Bytes b) =
    inl (if is_empty b then KeyError "Model Name"
         else TypeError bytes_like_required).
Proof.
  unfold parse_device. rewrite device_details_of_bytes.
  destruct b as [|c b]; [vm_compute|]; reflexivity.
Qed.

Lemma parsed_bytes (b : string) : parsed (Bytes b) = None.
Proof. unfold parsed. rewrite parse_device_bytes. reflexivity. Qed.

Lemma descriptors_bytes (received : list string) :
  descriptors (map Bytes received) = [].
Proof.
  induction received as [|b received IH]; [reflexivity|].
  unfold descriptors in *. simpl. rewrite parsed_bytes. exact IH.
Qed.

Lemma complaints_bytes (received : list string) :
  complaints (map Bytes received) = repeat invalid_response (length received).
Proof.
  induction received as [|b received IH]; [reflexivity|].
  unfold complaints in *. simpl. rewrite IH.
  unfold complaint. rewrite parse_device_bytes. reflexivity.
Qed.

Lemma descriptors_app (l1 l2 : list obj) :
  descriptors (l1 ++ l2) = descriptors l1 ++ descriptors l2.
Proof. unfold descriptors. apply omap_app. Qed.

Lemma descriptors_failed (device : obj) (e : exn) :
  parse_device device = inl e -> descriptors [device] = [].
Proof. intros H. unfold descriptors, parsed. simpl. rewrite H. reflexivity. Qed.

Lemma descriptors_parsed (device : obj) (a : Attenuator.t) :
  parse_device device = inr a -> descriptors [device] = [a].
Proof. intros H. unfold descriptors, parsed. simpl. rewrite H. reflexivity. Qed.

Lemma descriptors_drop (before after : list obj) (bad : obj) (e : exn) :
  parse_device bad = inl e ->
  descriptors (before ++ bad :: after) = descriptors (before ++ after).
Proof.
  intros H. change (bad :: after) with ([bad] ++ after).
  rewrite !descriptors_app, (descriptors_failed _ _ H). reflexivity.
Qed.

Ltac in_required_fields :=
  apply list_elem_of_In; unfold required_fields; simpl; tauto.

Lemma init_missing_field (d : gmap string string) (k : string) :
  k ∈ required_fields -> d !! k = None ->
  exists k', k' ∈ required_fields /\ Attenuator.__init__ d = inl (KeyError k').
Proof.
  intros Hk Hnone. unfold Attenuator.__init__, Attenuator.getitem.
  destruct (d !! "Model Name") eqn:E1;
    [|eexists; split; [|reflexivity]; in_required_fields].
  destruct (d !! "Serial Number") eqn:E2;
    [|eexists; split; [|reflexivity]; in_required_fields].
  destruct (d !! "IP Address") eqn:E3;
    [|eexists; split; [|reflexivity]; in_required_fields].
  destruct (d !! "Port") eqn:E4;
    [|eexists; split; [|reflexivity]; in_required_fields].
  destruct (d !! "Subnet Mask") eqn:E5;
    [|eexists; split; [|reflexivity]; in_required_fields].
  destruct (d !! "Network Gateway") eqn:E6;
    [|eexists; split; [|reflexivity]; in_required_fields].
  destruct (d !! "Mac Address") eqn:E7;
    [|eexists; split; [|reflexivity]; in_required_fields].
  exfalso. unfold required_fields in Hk.
  repeat (apply elem_of_cons in Hk as [-> | Hk]; [congruence|]).
  apply elem_of_nil in Hk. exact Hk.
Qed.

Lemma init_reads_all_fields (d : gmap string string) (a : Attenuator.t) :
  Attenuator.__init__ d = inr a ->
  d !! "Model Name" = Some (Attenuator.model_name a) /\
  d !! "Serial Number" = Some (Attenuator.serial_number a) /\
  d !! "IP Address" = Some (Attenuator.ip_address a) /\
  d !! "Port" = Some (Attenuator.port a) /\
  d !! "Subnet Mask" = Some (Attenuator.subnet_mask a) /\
  d !! "Network Gateway" = Some (Attenuator.network_gateway a) /\
  d !! "Mac Address" = Some (Attenuator.mac_address a).
Proof.
  unfold Attenuator.__init__, Attenuator.getitem. intros H.
  destruct (d !! "Model Name"); [|discriminate].
  destruct (d !! "Serial Number"); [|discriminate].
  destruct (d !! "IP Address"); [|discriminate].
  destruct (d !! "Port"); [|discriminate].
  destruct (d !! "Subnet Mask"); [|discriminate].
  destruct (d !! "Network Gateway"); [|discriminate].
  destruct (d !! "Mac Address"); [|discriminate].
  injection H as <-. simpl. repeat split; reflexivity.
Qed.

(** C5.  Whatever replies are received, and however many of them are well
    formed, parsing them returns no descriptor at all: every reply is
    bytes, the test ['IP Address' in field] raises [TypeError] on its first
    line (a reply of no bytes has no line and fails with [KeyError]), and
    the [except] drops it with the one printed line.  The result for N well
    formed replies and a malformed one is the empty list, not N
    descriptors. *)
Theorem received_replies_are_all_dropped (received : list string) (w : world) :
  parse_responses (map Bytes received) [] w =
    (Returned [],
     {| script := script w;
        trace := trace w ++ repeat invalid_response (length received) |}) /\
  Forall (fun b => parse_device (Bytes b) =
                     inl (if is_empty b then KeyError "Model Name"
                          else TypeError bytes_like_required)) received /\
  result_of (parse_responses
               [Bytes bench_reply; Bytes bench_reply; Bytes noise_reply] []) w =
    Returned [].
Proof.
  split; [|split].
  - rewrite parse_responses_run, descriptors_bytes, complaints_bytes. reflexivity.
  - apply Forall_forall. intros b _. apply parse_device_bytes.
  - apply (parse_responses_result
             (map Bytes [bench_reply; bench_reply; noise_reply])).
Qed.

(** C6.  No line of a received reply is parsed.  For every line, the line
    [IP Address=10.0.0.5  Port: 4951] included, the test of line 40 seeks
    a text in bytes and raises [TypeError]: neither the combined pattern
    nor the split is reached, no field is stored, and a reply that holds
    the line gives no dictionary. *)
Theorem received_line_raises_type_error (device_details : gmap string string)
    (line before after : string) :
  parse_field device_details (Bytes line) = inl (TypeError bytes_like_required) /\
  parse_field device_details (Bytes "IP Address=10.0.0.5  Port: 4951") =
    inl (TypeError bytes_like_required) /\
  device_details_of
    (Bytes (before +:+ "IP Address=10.0.0.5  Port: 4951" +:+ after)) =
    inl (TypeError bytes_like_required) /\
  parsed (Bytes (before +:+ "IP Address=10.0.0.5  Port: 4951" +:+ after)) = None.
Proof.
  split; [reflexivity|]. split; [reflexivity|]. split; [|apply parsed_bytes].
  rewrite device_details_of_bytes.
  destruct before as [|c before]; reflexivity.
Qed.

(** *** The address fields of a descriptor *)











(** C10.  [Attenuator.__init__] reads all seven fields: when the
    dictionary parsed from a reply lacks any one of them, building the
    descriptor raises [KeyError] (for the first missing key) inside the
    [try], and the reply is dropped from the result; a descriptor that is
    built has read all seven. *)
Theorem reply_missing_a_field_is_dropped (device : obj)
    (device_details : gmap string string) (k : string) :
  device_details_of device = inr device_details ->
  k ∈ required_fields ->
  device_details !! k = None ->
  (exists k', k' ∈ required_fields /\ parse_device device = inl (KeyError k')) /\
  descriptors [device] = [] /\
  (forall before after w,
     result_of (parse_responses (before ++ device :: after) []) w =
     result_of (parse_responses (before ++ after) []) w) /\
  (forall d a, Attenuator.__init__ d = inr a ->
     Forall (fun key => is_Some (d !! key)) required_fields).
Proof.
  intros Hd Hk Hnone.
  destruct (init_missing_field _ _ Hk Hnone) as (k' & Hk' & Hinit).
  assert (Hfail : parse_device device = inl (KeyError k')).
  { unfold parse_device. rewrite Hd. exact Hinit. }
  split; [exists k'; split; assumption|].
  split; [exact (descriptors_failed _ _ Hfail)|].
  split.
  - intros before after w. rewrite !parse_responses_result.
    rewrite (descriptors_drop _ _ _ _ Hfail). reflexivity.
  - intros d a Ha.
    destruct (init_reads_all_fields _ _ Ha) as (H1 & H2 & H3 & H4 & H5 & H6 & H7).
    unfold required_fields. repeat constructor; eexists; eassumption.
Qed.

(** The characters of a reply that has every field but the MAC address. *)
Definition reply_without_mac : string :=
  "Model Name: RCDAT-6000-60" +:+ newline +:+
  "Serial Number=11406170049" +:+ newline +:+
  "IP Address=10.0.0.5  Port: 4951" +:+ newline +:+
  "Subnet Mask=255.255.255.0" +:+ newline +:+
  "Network Gateway=10.0.0.1" +:+ newline.

Definition details_without_mac : gmap string string :=
  <["Network Gateway" := "10.0.0.1"]> (
  <["Subnet Mask" := "255.255.255.0"]> (
  <["Port" := "4951"]> (
  <["IP Address" := "10.0.0.5"]> (
  <["Serial Number" := "11406170049"]> (
  <["Model Name" := "RCDAT-6000-60"]> ∅))))).

(** At a received datagram of no bytes, which has no field at all, and at
    the text of a reply with six of the seven. *)
Lemma reply_missing_a_field_is_dropped_witness :
  descriptors [Bytes ""] = [] /\ descriptors [Str reply_without_mac] = [].
Proof.
  split.
  - apply (reply_missing_a_field_is_dropped (Bytes "") ∅ "Model Name").
    + vm_compute. reflexivity.
    + in_required_fields.
    + vm_compute. reflexivity.
  - apply (reply_missing_a_field_is_dropped (Str reply_without_mac)
             details_without_mac "Mac Address").
    + vm_compute. reflexivity.
    + in_required_fields.
    + vm_compute. reflexivity.
Defined.

(** *** The run of [discover_devices] *)

(** The message of line 24: a text. *)
Definition query : obj := Str ("MCLDAT?" +:+ newline).

(** The requests of lines 21 to 25, for the broadcast socket [s1]. *)
Definition first_requests (s1 : nat) : list request :=
  [Socket; Bind s1 "" 0; Setsockopt s1;
   Sendto s1 query "<broadcast>" MINI_CIRCUITS_LISTENTING_PORT].

(** The answers of a run in which every socket call does what it can: the
    socket is created, bound and set to broadcast, and the text handed to
    [sendto] is refused. *)
Definition first_answers (s1 : nat) : list answer :=
  [Sock s1; Done; Done; Fails (TypeError bytes_like_required)].

Definition is_answering_bind (r : request) : bool :=
  match r with
  | Bind _ _ port => (port =? MINI_CIRCUITS_ANSWERING_PORT)%Z
  | _ => false
  end.

Definition is_query_send (r : request) : bool :=
  match r with
  | Sendto _ msg _ port =>
      eq_op msg (Str ("MCLDAT?" +:+ newline)) &&
      (port =? MINI_CIRCUITS_LISTENTING_PORT)%Z
  | _ => false
  end.

Definition is_socket (r : request) : bool :=
  match r with
  | Socket => true
  | _ => false
  end.

(** The index of the first request that satisfies [f]. *)
Fixpoint position (f : request -> bool) (tr : list request) : option nat :=
  match tr with
  | [] => None
  | r :: tr' => if f r then Some 0 else S <$> position f tr'
  end.

(** C7 as it is stated: the receive socket is bound no later than the
    query is sent. *)
Definition bound_no_later_than_sent (tr : list request) : bool :=
  match position is_answering_bind tr, position is_query_send tr with
  | Some b, Some s => Nat.leb b s
  | _, _ => false
  end.


(** Whatever the outside answers, the call makes an initial part of the
    four requests of lines 21 to 25 and does not return. *)
Lemma discover_devices_stops_at_sendto (discovery_time : Z)
    (answers : list answer) :
  exists s1 k,
    k <= 4 /\
    trace_of (discover_devices discovery_time) (fresh answers) =
      take k (first_requests s1) /\
    returns (result_of (discover_devices discovery_time) (fresh answers)) = false.
Proof.
  assert (Hstop : forall s1 k,
            k <= 4 ->
            trace_of (discover_devices discovery_time) (fresh answers) =
              take k (first_requests s1) ->
            returns (result_of (discover_devices discovery_time) (fresh answers))
              = false ->
            exists s1 k,
              k <= 4 /\
              trace_of (discover_devices discovery_time) (fresh answers) =
                take k (first_requests s1) /\
              returns (result_of (discover_devices discovery_time)
                         (fresh answers)) = false).
  { intros s1 k Hk Ht Hr. exists s1, k. repeat split; assumption. }
  destruct answers as [|a1 answers];
    [apply (Hstop 0 1); [lia|reflexivity|reflexivity]|].
  destruct a1 as [| s1 | | | | |];
    try (apply (Hstop 0 1); [lia|reflexivity|reflexivity]).
  destruct answers as [|a2 answers];
    [apply (Hstop s1 2); [lia|reflexivity|reflexivity]|].
  destruct a2; try (apply (Hstop s1 2); [lia|reflexivity|reflexivity]).
  destruct answers as [|a3 answers];
    [apply (Hstop s1 3); [lia|reflexivity|reflexivity]|].
  destruct a3; try (apply (Hstop s1 3); [lia|reflexivity|reflexivity]).
  destruct answers as [|a4 answers];
    [apply (Hstop s1 4); [lia|reflexivity|reflexivity]|].
  destruct a4 as [| | | | | |e];
    try (apply (Hstop s1 4); [lia|reflexivity|reflexivity]).
  apply (Hstop s1 4); [lia| |];
    unfold trace_of, result_of, discover_devices, mbind, M_bind, bind,
      socket_socket, bind_, setsockopt, expect_done, sendto, refused, call,
      mret, M_ret, ret; simpl;
    destruct (decide (e = TypeError bytes_like_required)); reflexivity.
Qed.

(** C7, as stated, fails on the run with working sockets: the query is
    handed to [sendto] as the fourth request, and no socket has been bound
    to port 4951, then or at any time. *)
Lemma query_sent_with_no_receive_socket :
  let tr := trace_of (discover_devices 30) (fresh (first_answers 3)) in
  tr = [Socket; Bind 3 "" 0; Setsockopt 3;
        Sendto 3 (Str ("MCLDAT?" +:+ newline)) "<broadcast>" 4950] /\
  position is_query_send tr = Some 3 /\
  position is_answering_bind tr = None /\
  bound_no_later_than_sent tr = false.
Proof. repeat split. Qed.

Lemma lookup_first_requests (s1 k j : nat) (r : request) :
  take k (first_requests s1) !! j = Some r ->
  is_answering_bind r = false /\
  (is_query_send r = true -> j = 3) /\
  (is_socket r = true -> j = 0).
Proof.
  intros H. apply lookup_take_Some in H as [H _].
  destruct j as [|[|[|[|j]]]]; simpl in H; try discriminate H;
    injection H as <-; repeat split; intros; try reflexivity; discriminate.
Qed.

(** C7, amended.  Whatever the outside answers: when the query for port
    4950 is handed to [sendto], it is the fourth request of the call, and
    up to and including it no socket has been bound to port 4951 and only
    the broadcast socket has been created. *)
Theorem query_is_sent_before_the_receive_socket_exists (discovery_time : Z)
    (answers : list answer) (j : nat) (r : request) :
  trace_of (discover_devices discovery_time) (fresh answers) !! j = Some r ->
  is_query_send r = true ->
  j = 3 /\
  forall i r',
    i <= j ->
    trace_of (discover_devices discovery_time) (fresh answers) !! i = Some r' ->
    is_answering_bind r' = false /\ (is_socket r' = true -> i = 0).
Proof.
  destruct (discover_devices_stops_at_sendto discovery_time answers)
    as (s1 & k & _ & -> & _).
  intros Hj Hq. split.
  - apply (lookup_first_requests _ _ _ _ Hj). exact Hq.
  - intros i r' _ Hi. destruct (lookup_first_requests _ _ _ _ Hi) as (H1 & _ & H3).
    split; assumption.
Qed.

Lemma query_is_sent_before_the_receive_socket_exists_witness :
  3 = 3 /\
  forall i r',
    i <= 3 ->
    trace_of (discover_devices 30) (fresh (first_answers 3)) !! i = Some r' ->
    is_answering_bind r' = false /\ (is_socket r' = true -> i = 0).
Proof.
  apply (query_is_sent_before_the_receive_socket_exists 30 (first_answers 3) 3
           (Sendto 3 query "<broadcast>" 4950)); reflexivity.
Defined.


(** C9.  [discover_devices] never returns: whatever the outside answers
    and whatever the discovery time, its outcome is not a list.  With
    working sockets, and no reply at all, it raises the [TypeError] of
    [sendto] before it has waited for any reply. *)
Theorem discover_devices_never_returns (discovery_time : Z)
    (answers : list answer) (s1 : nat) :
  returns (result_of (discover_devices discovery_time) (fresh answers)) = false /\
  result_of (discover_devices discovery_time) (fresh (first_answers s1)) =
    Raised (TypeError bytes_like_required) /\
  trace_of (discover_devices discovery_time) (fresh (first_answers s1)) =
    first_requests s1.
Proof.
  destruct (discover_devices_stops_at_sendto discovery_time answers)
    as (s & k & _ & _ & Hr).
  split; [exact Hr|]. split; reflexivity.
Qed.

End Discovery.

(** * Further properties of the command client *)
Section CommandClientExtras.
Import Attenuator.

(** The fourteen query operations. *)
Inductive getter : Type :=
| GetAttenuation | GetStartupAttenuationMode | GetStartupAttenuationValue
| GetFirmwareVersion
| HopGetPoints | HopGetDirection | HopGetIndexedPoint | HopGetPointDwellTime
| HopGetPointAttenuation
| SweepGetDirection | SweepGetDwellTime | SweepGetStartAttenuation
| SweepGetStopAttenuation | SweepGetStepSize.

Definition run_getter (g : getter) : t -> M obj :=
  match g with
  | GetAttenuation => get_attenuation
  | GetStartupAttenuationMode => get_startup_attenuation_mode
  | GetStartupAttenuationValue => get_startup_attenuation_value
  | GetFirmwareVersion => get_firmware_version
  | HopGetPoints => hop_mode_get_points
  | HopGetDirection => hop_mode_get_direction
  | HopGetIndexedPoint => hop_mode_get_indexed_point
  | HopGetPointDwellTime => hop_mode_get_point_dwell_time
  | HopGetPointAttenuation => hop_mode_get_point_attenuation
  | SweepGetDirection => sweep_mode_get_sweep_direction
  | SweepGetDwellTime => sweep_mode_get_dwell_time
  | SweepGetStartAttenuation => sweep_mode_get_start_attenuation
  | SweepGetStopAttenuation => sweep_mode_get_stop_attenuation
  | SweepGetStepSize => sweep_mode_get_step_size
  end.

(** The command each query sends. *)
Definition query_of (g : getter) : string :=
  match g with
  | GetAttenuation => ":ATT?"
  | GetStartupAttenuationMode => ":STARTUPATT:INDICATOR?"
  | GetStartupAttenuationValue => ":STARTUPATT:VALUE?"
  | GetFirmwareVersion => ":FIRMWARE?"
  | HopGetPoints => ":HOP:POINTS?"
  | HopGetDirection => ":HOP:DIRECTION?"
  | HopGetIndexedPoint => ":HOP:POINT?"
  | HopGetPointDwellTime => ":HOP:DWELL?"
  | HopGetPointAttenuation => ":HOP:ATT?"
  | SweepGetDirection => ":SWEEP:DIRECTION?"
  | SweepGetDwellTime => ":SWEEP:DWELL?"
  | SweepGetStartAttenuation => ":SWEEP:START?"
  | SweepGetStopAttenuation => ":SWEEP:STOP?"
  | SweepGetStepSize => ":SWEEP:STEPSIZE?"
  end.

(** All seventeen setters. *)
Inductive setter : Type :=
| Discrete (op : discrete_setter)
| SetAttenuation
| SetStartupAttenuationValue.

Definition run_any_setter (s : setter) : t -> value -> M unit :=
  match s with
  | Discrete op => run_setter op
  | SetAttenuation => set_attenuation
  | SetStartupAttenuationValue => set_startup_attenuation_value
  end.

(** The command each setter sends for the argument [arg]. *)
Definition command_of (s : setter) (arg : value) : string :=
  match s with
  | SetAttenuation => ":SETATT=" +:+ str arg
  | SetStartupAttenuationValue => ":STARTUPATT:VALUE:" +:+ str arg
  | Discrete StartupAttenuationMode => "STARTUPATT:INDICATOR:" +:+ str arg
  | Discrete HopPoints => ":HOP:POINTS:" +:+ str arg
  | Discrete HopDirection => ":HOP:DIRECTION:" +:+ str arg
  | Discrete HopIndexedPoint => ":HOP:POINT:" +:+ str arg
  | Discrete HopPointDwellTimeUnits => ":HOP:DWELL_UNIT:" +:+ str arg
  | Discrete HopPointDwellTime => ":HOP:DWELL:" +:+ str arg
  | Discrete HopPointAttenuation => ":HOP:ATT:" +:+ str arg
  | Discrete HopMode => ":HOP:MODE:" +:+ str arg
  | Discrete SweepDirection => ":SWEEP:DIRECTION:" +:+ str arg
  | Discrete SweepDwellTimeUnits => ":SWEEP:DWELL_UNIT:" +:+ str arg
  | Discrete SweepDwellTime => ":SWEEP:DWELL:" +:+ str arg
  | Discrete SweepStartAttenuation => ":SWEEP:START:" +:+ str arg
  | Discrete SweepStopAttenuation => ":SWEEP:STOP:" +:+ str arg
  | Discrete SweepStepSize => ":SWEEP:STEPSIZE:" +:+ str arg
  | Discrete SweepMode => ":SWEEP:MODE:" +:+ str arg
  end.

Fixpoint last_char (s : string) : option ascii :=
  match s with
  | EmptyString => None
  | String c s' =>
      match last_char s' with
      | None => Some c
      | Some c' => Some c'
      end
  end.

Definition request_of (self : t) (command : string) : request :=
  Urlopen (http_cmd self command) 60.

Lemma send_http_cmd_trace (self : t) (command : string) (w : world) :
  trace_of (_send_http_cmd self command) w = trace w ++ [request_of self command].
Proof.
  unfold trace_of, _send_http_cmd, mbind, M_bind, bind, call.
  destruct w as [sc tr]; simpl.
  destruct sc as [|a sc]; [reflexivity|]. destruct a; reflexivity.
Qed.

Lemma send_http_cmd_script (self : t) (command : string) (w : world) :
  script (snd (_send_http_cmd self command w)) = tail (script w).
Proof.
  unfold _send_http_cmd, mbind, M_bind, bind, call.
  destruct w as [sc tr]; simpl.
  destruct sc as [|a sc]; [reflexivity|]. destruct a; reflexivity.
Qed.

(** A setter is [_send_http_cmd] followed by a test of the return code that
    makes no request. *)
Lemma setter_after_send (s : setter) (self : t) (arg : value) :
  exists check : obj -> M unit,
    run_any_setter s self arg = (_send_http_cmd self (command_of s arg) ≫= check) /\
    forall r w, snd (check r w) = w.
Proof.
  assert (Hexp : forall command failure,
            exists check : obj -> M unit,
              expect_1 self command failure = (_send_http_cmd self command ≫= check) /\
              forall r w, snd (check r w) = w).
  { intros command failure. eexists. split; [reflexivity|].
    intros r w. simpl. destruct (negb (eq_op r (Str "1"))); reflexivity. }
  destruct s as [op| |].
  - destruct op; apply Hexp.
  - eexists. split; [reflexivity|]. intros r w. simpl.
    destruct (eq_op r (Str "0")); [reflexivity|].
    destruct (eq_op r (Str "2")); reflexivity.
  - eexists. split; [reflexivity|]. intros r w. simpl.
    destruct (eq_op r (Str "0")); [reflexivity|].
    destruct (eq_op r (Str "2")); reflexivity.
Qed.

Lemma bind_after_send {A} (self : t) (command : string)
    (check : obj -> M A) (w : world) :
  (forall r w', snd (check r w') = w') ->
  snd ((_send_http_cmd self command ≫= check) w) =
  snd (_send_http_cmd self command w).
Proof.
  intros Hcheck. unfold mbind, M_bind, bind.
  destruct (_send_http_cmd self command w) as [[r|e|] w1]; simpl;
    [apply Hcheck|reflexivity|reflexivity].
Qed.

(** X1.  Every query operation returns the response body as it is, the
    bytes that were read, whatever they are, and raises what the transport
    raises; either way it has made the one request for its own command,
    which starts with a colon and ends with a question mark. *)
Theorem getters_return_the_body (g : getter) (self : t) (r : string) (e : exn)
    (rest : list answer) (tr : list request) :
  run_getter g self {| script := Body r :: rest; trace := tr |} =
    (Returned (Bytes r),
     {| script := rest; trace := tr ++ [request_of self (query_of g)] |}) /\
  run_getter g self {| script := Fails e :: rest; trace := tr |} =
    (Raised e,
     {| script := rest; trace := tr ++ [request_of self (query_of g)] |}) /\
  String.prefix ":" (query_of g) = true /\
  last_char (query_of g) = Some "?"%char.
Proof. repeat split; destruct g; reflexivity. Qed.

Lemma run_any_setter_world (s : setter) (self : t) (arg : value) (w : world) :
  snd (run_any_setter s self arg w) =
  snd (_send_http_cmd self (command_of s arg) w).
Proof.
  destruct (setter_after_send s self arg) as (check & -> & Hcheck).
  apply bind_after_send. exact Hcheck.
Qed.

(** X2.  Every setter makes exactly one request, for its own command with
    its argument formatted into it, and consumes exactly one answer,
    whatever that answer is: nothing is sent twice.  When the transport
    raises, the setter raises the same exception. *)
Theorem setters_make_one_request (s : setter) (self : t) (arg : value) (w : world) :
  trace_of (run_any_setter s self arg) w =
    trace w ++ [request_of self (command_of s arg)] /\
  script (snd (run_any_setter s self arg w)) = tail (script w) /\
  (forall e rest, script w = Fails e :: rest ->
     result_of (run_any_setter s self arg) w = Raised e).
Proof.
  split; [|split].
  - unfold trace_of. rewrite run_any_setter_world. apply send_http_cmd_trace.
  - rewrite run_any_setter_world. apply send_http_cmd_script.
  - intros e rest Hw. destruct w as [sc tr]. simpl in Hw. subst sc.
    destruct (setter_after_send s self arg) as (check & -> & _).
    unfold result_of, mbind, M_bind, bind. rewrite send_http_cmd_fails. reflexivity.
Qed.

Lemma setters_make_one_request_witness :
  result_of (set_attenuation bench_device (VFloat "12.5"))
    (fresh [Fails (OSError "Connection refused")]) =
    Raised (OSError "Connection refused").
Proof.
  apply (proj2 (proj2 (setters_make_one_request SetAttenuation bench_device
                         (VFloat "12.5")
                         (fresh [Fails (OSError "Connection refused")])))
           (OSError "Connection refused") []).
  reflexivity.
Defined.

(** X3.  The command of every setter starts with a colon, except that of
    [set_startup_attenuation_mode], which is sent as
    [STARTUPATT:INDICATOR:<mode>]. *)
Theorem setter_commands_leading_colon (s : setter) (self : t) (arg : value)
    (w : world) :
  exists command,
    trace_of (run_any_setter s self arg) w = trace w ++ [request_of self command] /\
    (String.prefix ":" command = true <-> s <> Discrete StartupAttenuationMode) /\
    (s = Discrete StartupAttenuationMode ->
       command = "STARTUPATT:INDICATOR:" +:+ str arg).
Proof.
  exists (command_of s arg). split; [|split].
  - unfold trace_of. rewrite run_any_setter_world. apply send_http_cmd_trace.
  - destruct s as [op| |]; [destruct op|..];
      (split; [intros H; first [discriminate H | intros Heq; discriminate Heq]
              |intros H; first [reflexivity | exfalso; apply H; reflexivity]]).
  - intros ->. reflexivity.
Qed.

Ltac is_required_field :=
  apply list_elem_of_In; unfold required_fields; simpl; tauto.

(** X4.  [__init__] depends on the seven fields it reads and on nothing
    else in the dictionary: two dictionaries that agree on those keys give
    the same descriptor, or the same [KeyError]. *)
Theorem init_reads_only_required_fields (d1 d2 : gmap string string) :
  (forall k, k ∈ required_fields -> d1 !! k = d2 !! k) ->
  __init__ d1 = __init__ d2.
Proof.
  intros H. unfold __init__, getitem.
  rewrite (H "Model Name") by is_required_field.
  rewrite (H "Serial Number") by is_required_field.
  rewrite (H "IP Address") by is_required_field.
  rewrite (H "Port") by is_required_field.
  rewrite (H "Subnet Mask") by is_required_field.
  rewrite (H "Network Gateway") by is_required_field.
  rewrite (H "Mac Address") by is_required_field.
  reflexivity.
Qed.

Lemma init_reads_only_required_fields_witness :
  __init__ (<["Firmware" := "A1"]> bench_details) = __init__ bench_details.
Proof.
  apply (init_reads_only_required_fields (<["Firmware" := "A1"]> bench_details)
           bench_details).
  intros k Hk. apply lookup_insert_ne. intros <-.
  apply list_elem_of_In in Hk. simpl in Hk.
  repeat (destruct Hk as [Hk|Hk]; [discriminate Hk|]). exact Hk.
Defined.

End CommandClientExtras.

(** * Further properties of discovery *)
Section DiscoveryExtras.
Import DeviceManager.

Lemma complaints_invalid (responses : list obj) :
  Forall (fun r => r = invalid_response) (complaints responses).
Proof.
  induction responses as [|device rest IH]; [constructor|].
  unfold complaints in *. simpl. apply Forall_app. split; [|exact IH].
  unfold complaint. destruct (parse_device device); repeat constructor.
Qed.

Lemma descriptors_complaints_length (responses : list obj) :
  length (descriptors responses) + length (complaints responses) =
  length responses.
Proof.
  induction responses as [|device rest IH]; [reflexivity|].
  change (device :: rest) with ([device] ++ rest).
  rewrite descriptors_app. unfold complaints. rewrite flat_map_app.
  fold (complaints rest). rewrite !length_app.
  simpl flat_map. rewrite app_nil_r. unfold complaint.
  destruct (parse_device device) as [e|a] eqn:E.
  - rewrite (descriptors_failed _ _ E). simpl. lia.
  - rewrite (descriptors_parsed _ _ E). simpl. lia.
Qed.

Lemma complaints_none (responses : list obj) :
  complaints responses = [] <->
  Forall (fun device => is_Some (parsed device)) responses.
Proof.
  induction responses as [|device rest IH].
  - split; [constructor|reflexivity].
  - unfold complaints. simpl. fold (complaints rest). unfold complaint at 1.
    destruct (parse_device device) as [e|a] eqn:E; simpl.
    + split; [discriminate|]. intros H. inversion H as [|? ? [x Hx] _].
      unfold parsed in Hx. rewrite E in Hx. discriminate Hx.
    + rewrite IH. split.
      * intros H. constructor; [|exact H].
        unfold parsed. rewrite E. eexists. reflexivity.
      * intros H. inversion H. assumption.
Qed.

(** X5.  Parsing the received replies never raises and asks nothing of the
    outside: it returns a list, and every reply is accounted for, either by
    a descriptor or by one printed line, always the same one; nothing is
    printed exactly when every reply parses. *)
Theorem every_reply_is_accounted_for (responses : list obj) (w : world) :
  exists found printed,
    parse_responses responses [] w =
      (Returned found, {| script := script w; trace := trace w ++ printed |}) /\
    length found + length printed = length responses /\
    Forall (fun r => r = invalid_response) printed /\
    (printed = [] <-> Forall (fun device => is_Some (parsed device)) responses).
Proof.
  exists (descriptors responses), (complaints responses).
  split; [apply parse_responses_run|].
  split; [apply descriptors_complaints_length|].
  split; [apply complaints_invalid|apply complaints_none].
Qed.




(** A computation that consumes answers from the front of the script and
    raises nothing but what one of the consumed answers raised. *)
Definition raises_only_outside {A} (m : M A) : Prop :=
  forall w, exists used,
    script w = used ++ script (snd (m w)) /\
    forall e, fst (m w) = Raised e -> Fails e ∈ used.

Lemma outside_ret {A} (a : A) : raises_only_outside (mret a : M A).
Proof. intros w. exists []. split; [reflexivity|discriminate]. Qed.

Lemma outside_stuck {A} : raises_only_outside (@stuck A).
Proof. intros w. exists []. split; [reflexivity|discriminate]. Qed.

Lemma outside_print (line : string) : raises_only_outside (print line).
Proof. intros w. exists []. split; [reflexivity|discriminate]. Qed.

Lemma outside_call (r : request) : raises_only_outside (call r).
Proof.
  intros w. unfold call. destruct (script w) as [|a rest].
  - exists []. split; [reflexivity|discriminate].
  - exists [a]. split; [destruct a; reflexivity|].
    intros e. destruct a; try discriminate.
    intros H. injection H as ->. apply list_elem_of_singleton. reflexivity.
Qed.

Lemma outside_refused {A} (r : request) (e : exn) :
  raises_only_outside (@refused A r e).
Proof.
  intros w. unfold refused. destruct (script w) as [|a rest].
  - exists []. split; [reflexivity|discriminate].
  - exists [a]. destruct a as [| | | | | |e']; try (split; [reflexivity|discriminate]).
    destruct (decide (e' = e)) as [->|Hne]; (split; [reflexivity|]).
    + intros e0 H. injection H as <-. apply list_elem_of_singleton. reflexivity.
    + discriminate.
Qed.

Lemma outside_bind {A B} (m : M A) (k : A -> M B) :
  raises_only_outside m -> (forall a, raises_only_outside (k a)) ->
  raises_only_outside (m ≫= k).
Proof.
  intros Hm Hk w. destruct (Hm w) as (u1 & H1 & R1).
  unfold mbind, M_bind, bind. destruct (m w) as [[a|e|] w1]; simpl in *.
  - destruct (Hk a w1) as (u2 & H2 & R2). exists (u1 ++ u2).
    rewrite H1, H2 at 1. rewrite app_assoc. split; [reflexivity|].
    intros e He. apply elem_of_app. right. apply R2. exact He.
  - exists u1. split; [exact H1|].
    intros e' He'. injection He' as <-. apply R1. reflexivity.
  - exists u1. split; [exact H1|discriminate].
Qed.

Lemma outside_answer {A} (r : request) (k : answer -> M A) :
  (forall a, raises_only_outside (k a)) -> raises_only_outside (call r ≫= k).
Proof. intros Hk. apply outside_bind; [apply outside_call|exact Hk]. Qed.

Lemma outside_receive (fuel sock : nat) (timeout : Z) :
  forall acc, raises_only_outside (receive fuel sock timeout acc).
Proof.
  induction fuel as [|fuel IH]; intros acc; [apply outside_stuck|].
  simpl. apply outside_bind.
  { apply outside_answer. intros a.
    destruct a; first [apply outside_ret | apply outside_stuck]. }
  intros now. destruct (now <? timeout)%Z; [|apply outside_ret].
  apply outside_bind.
  { apply outside_answer. intros a.
    destruct a; first [apply outside_ret | apply outside_stuck]. }
  intros now'. apply outside_bind.
  { unfold select_select. destruct (timeout - now' <? 0)%Z;
      [apply outside_refused|].
    apply outside_answer. intros a.
    destruct a; first [apply outside_ret | apply outside_stuck]. }
  intros [|]; [|apply IH].
  apply outside_bind; [|intros data; apply IH].
  apply outside_answer. intros a.
  destruct a; first [apply outside_ret | apply outside_stuck].
Qed.

Lemma outside_parse_responses (responses : list obj) :
  forall acc, raises_only_outside (parse_responses responses acc).
Proof.
  intros acc w. exists []. rewrite parse_responses_run.
  split; [reflexivity|discriminate].
Qed.

Lemma outside_discover_devices (discovery_time : Z) :
  raises_only_outside (discover_devices discovery_time).
Proof.
  assert (Hdone : forall r, raises_only_outside (call r ≫= expect_done)).
  { intros r. apply outside_answer. intros a.
    destruct a; first [apply outside_ret | apply outside_stuck]. }
  assert (Hsock : raises_only_outside socket_socket).
  { apply outside_answer. intros a.
    destruct a; first [apply outside_ret | apply outside_stuck]. }
  unfold discover_devices.
  apply outside_bind; [exact Hsock|]. intros s1.
  apply outside_bind; [apply Hdone|]. intros _.
  apply outside_bind; [apply Hdone|]. intros _.
  apply outside_bind; [apply outside_refused|]. intros _.
  apply outside_bind; [exact Hsock|]. intros s2.
  apply outside_bind; [apply Hdone|]. intros _.
  apply outside_bind.
  { apply outside_answer. intros a.
    destruct a; first [apply outside_ret | apply outside_stuck]. }
  intros now. apply outside_bind.
  - intros w. unfold with_fuel. apply outside_receive.
  - intros responses. apply outside_parse_responses.
Qed.

(** X17.  [discover_devices] raises nothing of its own: whatever the
    outside answers, an exception that leaves it is one that a socket or
    clock call raised.  No [IndexError], [KeyError] or [TypeError] from the
    parsing of a reply ever reaches the caller. *)
Theorem discovery_raises_only_what_a_socket_raised (discovery_time : Z)
    (answers : list answer) (e : exn) :
  result_of (discover_devices discovery_time) (fresh answers) = Raised e ->
  Fails e ∈ answers.
Proof.
  intros H.
  destruct (outside_discover_devices discovery_time (fresh answers))
    as (used & Hused & Hraise).
  simpl in Hused. rewrite Hused. apply elem_of_app. left.
  apply Hraise. exact H.
Qed.

Lemma discovery_raises_only_what_a_socket_raised_witness :
  Fails (TypeError bytes_like_required) ∈
    [Sock 3; Done; Done; Fails (TypeError bytes_like_required)].
Proof.
  apply (discovery_raises_only_what_a_socket_raised 30
           [Sock 3; Done; Done; Fails (TypeError bytes_like_required)]).
  reflexivity.
Defined.

(** *** Line endings *)

Definition no_linebreak (s : string) : bool :=
  all_chars (fun c => negb (is_linebreak c)) s.

Definition LF : ascii := "010"%char.
Definition CR : ascii := "013"%char.

Lemma splitlines_by_line_lf (brk : ascii -> bool) (l rest : string) :
  brk LF = true ->
  all_chars (fun c => negb (brk c)) l = true ->
  splitlines_by brk (l +:+ String LF rest) = l :: splitlines_by brk rest.
Proof.
  intros HLF Hl. induction l as [|c l IH].
  - rewrite append_nil_l. simpl. rewrite HLF. destruct rest; reflexivity.
  - simpl in Hl. apply andb_true_iff in Hl as [Hc Hl]. apply negb_true_iff in Hc.
    rewrite append_cons. simpl. rewrite Hc, (IH Hl). reflexivity.
Qed.

Lemma splitlines_by_line_crlf (brk : ascii -> bool) (l rest : string) :
  brk CR = true ->
  all_chars (fun c => negb (brk c)) l = true ->
  splitlines_by brk (l +:+ String CR (String LF rest)) = l :: splitlines_by brk rest.
Proof.
  intros HCR Hl. induction l as [|c l IH].
  - rewrite append_nil_l. simpl. rewrite HCR. reflexivity.
  - simpl in Hl. apply andb_true_iff in Hl as [Hc Hl]. apply negb_true_iff in Hc.
    rewrite append_cons. simpl. rewrite Hc, (IH Hl). reflexivity.
Qed.

(** The lines, each followed by a line feed, or each by a carriage return
    and a line feed. *)
Fixpoint lines_lf (lines : list string) : string :=
  match lines with
  | [] => EmptyString
  | l :: lines' => l +:+ String LF (lines_lf lines')
  end.

Fixpoint lines_crlf (lines : list string) : string :=
  match lines with
  | [] => EmptyString
  | l :: lines' => l +:+ String CR (String LF (lines_crlf lines'))
  end.

Lemma splitlines_by_lines (brk : ascii -> bool) (lines : list string) :
  brk LF = true -> brk CR = true ->
  Forall (fun l => all_chars (fun c => negb (brk c)) l = true) lines ->
  splitlines_by brk (lines_lf lines) = lines /\
  splitlines_by brk (lines_crlf lines) = lines.
Proof.
  intros HLF HCR. induction 1 as [|l lines Hl _ [IH1 IH2]]; [split; reflexivity|].
  simpl. rewrite (splitlines_by_line_lf _ _ _ HLF Hl), IH1.
  rewrite (splitlines_by_line_crlf _ _ _ HCR Hl), IH2. split; reflexivity.
Qed.

(** A boundary of [bytes.splitlines] is one of [str.splitlines]. *)
Lemma bytes_linebreak_is_linebreak (c : ascii) :
  is_bytes_linebreak c = true -> is_linebreak c = true.
Proof.
  unfold is_bytes_linebreak, is_linebreak. cbv zeta. intros H.
  apply orb_true_iff in H as [H|H]; apply N.eqb_eq in H; rewrite H; reflexivity.
Qed.

Lemma no_linebreak_bytes (l : string) :
  no_linebreak l = true ->
  all_chars (fun c => negb (is_bytes_linebreak c)) l = true.
Proof.
  unfold no_linebreak. induction l as [|c l IH]; [reflexivity|].
  simpl. intros H. apply andb_true_iff in H as [Hc Hl].
  rewrite (IH Hl), andb_true_r. apply negb_true_iff in Hc.
  apply negb_true_iff. destruct (is_bytes_linebreak c) eqn:E; [|reflexivity].
  rewrite (bytes_linebreak_is_linebreak _ E) in Hc. discriminate Hc.
Qed.

(** X14.  A reply is read line by line whichever way its lines end: lines
    that hold no line boundary, each followed by a line feed or each by a
    carriage return and a line feed, are recovered by [splitlines], of
    text and of bytes alike, so both forms of a reply give the same
    descriptor or the same failure. *)
Theorem line_endings_do_not_matter (lines : list string) :
  Forall (fun l => no_linebreak l = true) lines ->
  splitlines (lines_lf lines) = lines /\
  splitlines (lines_crlf lines) = lines /\
  parse_device (Str (lines_crlf lines)) = parse_device (Str (lines_lf lines)) /\
  bytes_splitlines (lines_lf lines) = lines /\
  bytes_splitlines (lines_crlf lines) = lines /\
  parse_device (Bytes (lines_crlf lines)) = parse_device (Bytes (lines_lf lines)).
Proof.
  intros Hlines.
  destruct (splitlines_by_lines is_linebreak lines eq_refl eq_refl Hlines)
    as [H1 H2].
  assert (Hbytes : Forall (fun l => all_chars (fun c => negb (is_bytes_linebreak c)) l
                                    = true) lines).
  { eapply Forall_impl; [exact Hlines|]. intros l. apply no_linebreak_bytes. }
  destruct (splitlines_by_lines is_bytes_linebreak lines eq_refl eq_refl Hbytes)
    as [H3 H4].
  fold (splitlines (lines_lf lines)) in H1.
  fold (splitlines (lines_crlf lines)) in H2.
  fold (bytes_splitlines (lines_lf lines)) in H3.
  fold (bytes_splitlines (lines_crlf lines)) in H4.
  repeat split; try assumption.
  - unfold parse_device, device_details_of, obj_splitlines. rewrite H1, H2.
    reflexivity.
  - unfold parse_device, device_details_of, obj_splitlines. rewrite H3, H4.
    reflexivity.
Qed.

Lemma line_endings_do_not_matter_witness :
  bytes_splitlines
    (lines_crlf ["Model Name: RCDAT-6000-60"; "Serial Number=11406170049";
                 "IP Address=10.0.0.5  Port: 4951";
                 "Subnet Mask=255.255.255.0"; "Network Gateway=10.0.0.1";
                 "Mac Address=D0-73-7F-82-D8-01"]) =
    ["Model Name: RCDAT-6000-60"; "Serial Number=11406170049";
     "IP Address=10.0.0.5  Port: 4951";
     "Subnet Mask=255.255.255.0"; "Network Gateway=10.0.0.1";
     "Mac Address=D0-73-7F-82-D8-01"].
Proof.
  apply (line_endings_do_not_matter
           ["Model Name: RCDAT-6000-60"; "Serial Number=11406170049";
            "IP Address=10.0.0.5  Port: 4951";
            "Subnet Mask=255.255.255.0"; "Network Gateway=10.0.0.1";
            "Mac Address=D0-73-7F-82-D8-01"]).
  repeat constructor.
Defined.

End DiscoveryExtras.
